(** * PySDDR: the semi-structured distributional regression network

    A shallow embedding of [sddr_network.py]: the per-parameter network
    [Sddr_Param_Net] (structured head, deep sub-models, orthogonalization
    layer, smoothing penalty) and the composite network [SddrNet]
    (per-parameter passes, distribution layer, log-loss, regularization).

    Tensors are two-dimensional and carry their shape at run time, as
    torch tensors do; an operation applied to incompatible shapes raises.
    In [Torch] the entries live in an arbitrary commutative ring [R]:
    this is the program with exact arithmetic, and it settles which
    formula is computed, on which shapes, in which order and with which
    state. The program itself computes in float32; what depends on
    rounding is settled in [Float32], where the orthogonalization layer
    and the penalty are embedded with IEEE binary32 arithmetic.
    Python dictionaries are association lists in insertion order.
    [torch.qr] and the random initialisation of [nn.Linear] are library
    code and enter as parameters. *)

From HB Require Import structures.
From Stdlib Require Import String ZArith SpecFloat.
From mathcomp Require Import boot order algebra.

Set Implicit Arguments.
Unset Strict Implicit.
Unset Printing Implicit Defensive.

Import GRing.Theory Num.Theory.

HB.instance Definition _ := hasDecEq.Build string String.eqb_spec.

(** ** Exceptions *)

Inductive error : Type :=
  | KeyError (key : string)          (* dict lookup on a missing key *)
  | AttributeError (name : string)   (* attribute read before it is set *)
  | ShapeMismatch                    (* torch RuntimeError: sizes do not match *)
  | EmptyTensorList                  (* torch.cat on an empty list *)
  | CollaboratorError (msg : string) (* raised by a deep model or the family *).

Inductive result (A : Type) : Type :=
  | Ok (a : A)
  | Err (e : error).
Arguments Ok {A} a.
Arguments Err {A} e.

Definition bind {A B} (r : result A) (k : A -> result B) : result B :=
  match r with Ok a => k a | Err e => Err e end.

Notation "x <~ e ;; k" := (bind e (fun x => k))
  (at level 100, e at next level, k at level 200, right associativity,
   format "'[v' x  <~  e ;;  '/' k ']'").

Definition is_ok {A} (r : result A) : bool :=
  if r is Ok _ then true else false.

(** ** Python dictionaries: association lists in insertion order *)

Definition dict (V : Type) := seq (string * V).

Definition keys {V} (d : dict V) : seq string := [seq kv.1 | kv <- d].
Definition values {V} (d : dict V) : seq V := [seq kv.2 | kv <- d].

(** [d[k]] *)
Fixpoint dict_get {V} (d : dict V) (k : string) : result V :=
  match d with
  | [::] => Err (KeyError k)
  | (k', v) :: d' => if k' == k then Ok v else dict_get d' k
  end.

(** [d[k] = v]: overwrite in place, or append a new entry. *)
Fixpoint dict_set {V} (d : dict V) (k : string) (v : V) : dict V :=
  match d with
  | [::] => [:: (k, v)]
  | (k', v') :: d' =>
      if k' == k then (k', v) :: d' else (k', v') :: dict_set d' k v
  end.

(** ** Tensors *)

Module Torch.
Section Tensor.

Variable R : comNzRingType.
Local Open Scope ring_scope.

Record tensor : Type :=
  Tensor { rows : nat; cols : nat; data : 'M[R]_(rows, cols) }.

(** Entry at natural-number indices; only read inside the shape. *)
Definition get (t : tensor) (i j : nat) : R :=
  match insub i, insub j with
  | Some i', Some j' => data t i' j'
  | _, _ => 0
  end.

Definition mk (m n : nat) (f : nat -> nat -> R) : tensor :=
  Tensor (\matrix_(i < m, j < n) f i j).

(** [A.T] *)
Definition transpose (A : tensor) : tensor := Tensor (data A)^T.

(** [A @ B] on two-dimensional tensors. *)
Definition matmul (A B : tensor) : result tensor :=
  if cols A == rows B then
    Ok (mk (rows A) (cols B)
          (fun i j => \sum_(k < cols A) get A i k * get B k j))
  else Err ShapeMismatch.

(** Broadcasting of one dimension: equal sizes, or one of them is 1. *)
Definition bdim (a b : nat) : option nat :=
  if a == b then Some a
  else if a == 1%N then Some b
  else if b == 1%N then Some a
  else None.

Definition bidx (a i : nat) : nat := if a == 1%N then 0%N else i.

Definition broadcast (op : R -> R -> R) (A B : tensor) : result tensor :=
  match bdim (rows A) (rows B), bdim (cols A) (cols B) with
  | Some m, Some n =>
      Ok (mk m n (fun i j =>
            op (get A (bidx (rows A) i) (bidx (cols A) j))
               (get B (bidx (rows B) i) (bidx (cols B) j))))
  | _, _ => Err ShapeMismatch
  end.

(** [A + B] and [A - B] *)
Definition add : tensor -> tensor -> result tensor := broadcast +%R.
Definition sub : tensor -> tensor -> result tensor :=
  broadcast (fun x y => x - y).

(** [-A] *)
Definition neg (A : tensor) : tensor := Tensor (- data A).

(** [c + A] for a Python number [c] *)
Definition scalar_add (c : R) (A : tensor) : tensor :=
  Tensor (map_mx (fun x => c + x) (data A)).

(** [X[:, start:stop]] with Python's clamping of the bounds. *)
Definition slice : Type := (nat * nat)%type.

Definition slice_cols (X : tensor) (sl : slice) : tensor :=
  let stop := minn sl.2 (cols X) in
  let start := minn sl.1 stop in
  mk (rows X) (stop - start) (fun i j => get X i (start + j)).

(** [torch.cat([A, B], 1)] *)
Definition hcat (A B : tensor) : result tensor :=
  if rows A == rows B then
    Ok (mk (rows A) (cols A + cols B)
          (fun i j => if (j < cols A)%N then get A i j
                      else get B i (j - cols A)))
  else Err ShapeMismatch.

Fixpoint cat_from (acc : tensor) (ts : seq tensor) : result tensor :=
  match ts with
  | [::] => Ok acc
  | t :: ts' => acc' <~ hcat acc t ;; cat_from acc' ts'
  end.

(** [torch.cat(ts, 1)] *)
Definition cat1 (ts : seq tensor) : result tensor :=
  match ts with
  | [::] => Err EmptyTensorList
  | t :: ts' => cat_from t ts'
  end.

(** [nn.Linear(in_features, 1, bias=False)]: the weight is a row vector
    of length [in_features]; the layer computes [x @ weight.T]. *)
Record Linear : Type :=
  MkLinear { in_features : nat; weight : 'rV[R]_in_features }.

Definition linear (l : Linear) (x : tensor) : result tensor :=
  matmul x (transpose (Tensor (weight l))).

(** A Python value that is either a number or a tensor, as the
    accumulators [deep_pred] and [regularization] are. *)
Inductive value : Type :=
  | Num (c : R)
  | Ten (t : tensor).

Definition py_add (a b : value) : result value :=
  match a, b with
  | Num x, Num y => Ok (Num (x + y))
  | Num x, Ten t => Ok (Ten (scalar_add x t))
  | Ten t, Num y => Ok (Ten (scalar_add y t))
  | Ten s, Ten t => r <~ add s t ;; Ok (Ten r)
  end.

End Tensor.
End Torch.
Export Torch.

(** ** class Sddr_Param_Net *)

Module Sddr_Param_Net.
Section Class.

Variable R : comNzRingType.

(** [torch.qr(X)], first component: the basis [Q]. *)
Variable qr : tensor R -> result (tensor R).

(** Initial weight of a fresh [nn.Linear(n, 1, bias=False)]. *)
Variable linear_init : forall n : nat, 'rV[R]_n.

(** A deep model is a callable from tensors to tensors. *)
Definition deep_model : Type := tensor R -> result (tensor R).

Record t : Type := Build {
  P : tensor R;
  deep_models_dict : dict deep_model;
  orthogonalization_pattern : dict (seq slice);
  structured_head : Linear R;
  deep_head : option (Linear R);   (* set only when deep models exist *)
  _deep_models_exist : bool
}.

(** The constructor, for names that [add_module] accepts. [add_module]
    is library code: it registers the deep models for the enumeration of
    trainable parameters, and raises for a name that is empty, holds a
    dot or is an attribute of the object already. *)
Definition __init__ (deep_models_dict : dict deep_model)
    (deep_shapes : dict nat) (struct_shapes : nat)
    (orthogonalization_pattern : dict (seq slice)) (P : tensor R) : t :=
  let structured_head := MkLinear (linear_init struct_shapes) in
  if size deep_models_dict != 0 then
    let output_size_of_deep_models := sumn (values deep_shapes) in
    Build P deep_models_dict orthogonalization_pattern structured_head
          (Some (MkLinear (linear_init output_size_of_deep_models))) true
  else
    Build P deep_models_dict orthogonalization_pattern structured_head
          None false.

(** [Utilde = Uhat - QQTUhat] *)
Definition _orthog_layer (Q Uhat : tensor R) : result (tensor R) :=
  Projection_Matrix <~ matmul Q (transpose Q) ;;
  PU <~ matmul Projection_Matrix Uhat ;;
  sub Uhat PU.

(** The body of the loop over [self.deep_models_dict.keys()]. *)
Definition forward_step (self : t) (datadict : dict (tensor R))
    (X : tensor R) (key : string) : result (tensor R) :=
  net <~ dict_get (deep_models_dict self) key ;;
  input <~ dict_get datadict key ;;
  Uhat_net <~ net input ;;
  pattern <~ dict_get (orthogonalization_pattern self) key ;;
  if (0 < size pattern)%N then
    X_sliced <~ cat1 [seq slice_cols X sl | sl <- pattern] ;;
    Q <~ qr X_sliced ;;
    _orthog_layer Q Uhat_net
  else Ok Uhat_net.

Fixpoint forward_loop (self : t) (datadict : dict (tensor R))
    (X : tensor R) (ks : seq string) (Utilde_list : seq (tensor R))
    : result (seq (tensor R)) :=
  match ks with
  | [::] => Ok Utilde_list
  | key :: ks' =>
      Utilde_net <~ forward_step self datadict X key ;;
      forward_loop self datadict X ks' (rcons Utilde_list Utilde_net)
  end.

Definition get_deep_head (self : t) : result (Linear R) :=
  if deep_head self is Some l then Ok l else Err (AttributeError "deep_head").

Definition forward (self : t) (datadict : dict (tensor R))
    : result (value R) :=
  X <~ dict_get datadict "structured" ;;
  deep_pred <~
    (if _deep_models_exist self then
       Utilde_list <~
         forward_loop self datadict X (keys (deep_models_dict self)) [::] ;;
       Utilde <~ cat1 Utilde_list ;;
       head <~ get_deep_head self ;;
       r <~ linear head Utilde ;;
       Ok (Ten r)
     else Ok (Num 0%R)) ;;
  structured_pred <~ linear (structured_head self) X ;;
  py_add (Ten structured_pred) deep_pred.

Definition get_regularization (self : t) : result (tensor R) :=
  let weights := Tensor (weight (structured_head self)) in
  wP <~ matmul weights (P self) ;;
  matmul wP (transpose weights).

End Class.
End Sddr_Param_Net.

(** ** class SddrNet *)

Module SddrNet.
Section Class.

Variable R : comNzRingType.
Variable qr : tensor R -> result (tensor R).
Variable linear_init : forall n : nat, 'rV[R]_n.

(** An instance of a torch distribution: its [log_prob] method. *)
Record distribution : Type :=
  Distribution { log_prob : tensor R -> result (tensor R) }.

(** The distribution family collaborator. *)
Record family : Type := Family {
  get_distribution_layer_type :
    result (dict (value R) -> result distribution);
  get_distribution_trafos : dict (value R) -> result (dict (value R))
}.

(** One value of [network_info_dict]. *)
Record network_info : Type := NetworkInfo {
  info_deep_models_dict : dict (Sddr_Param_Net.deep_model R);
  info_deep_shapes : dict nat;
  info_struct_shapes : nat;
  info_orthogonalization_pattern : dict (seq slice);
  info_P : tensor R
}.

(** The object's attributes; [regularization] and [distribution_layer]
    do not exist until [forward] assigns them. *)
Record t : Type := Build {
  family_class : family;
  single_parameter_sddr_list : dict (Sddr_Param_Net.t R);
  distribution_layer_type : dict (value R) -> result distribution;
  regularization : option (value R);
  distribution_layer : option distribution
}.

Fixpoint init_loop (items : dict network_info)
    (acc : dict (Sddr_Param_Net.t R)) : dict (Sddr_Param_Net.t R) :=
  match items with
  | [::] => acc
  | (key, value) :: items' =>
      let net :=
        Sddr_Param_Net.__init__ linear_init
          (info_deep_models_dict value) (info_deep_shapes value)
          (info_struct_shapes value)
          (info_orthogonalization_pattern value) (info_P value) in
      init_loop items' (dict_set acc key net)
  end.

(** The constructor, for parameter names that [add_module] accepts, as
    above. *)
Definition __init__ (family_class : family)
    (network_info_dict : dict network_info) : result t :=
  let single_parameter_sddr_list := init_loop network_info_dict [::] in
  layer_type <~ get_distribution_layer_type family_class ;;
  Ok (Build family_class single_parameter_sddr_list layer_type None None).

(** The loop of [forward] over [datadict.items()], filling [pred]. *)
Fixpoint forward_loop (self : t) (items : dict (dict (tensor R)))
    (pred : dict (value R)) : result (dict (value R)) :=
  match items with
  | [::] => Ok pred
  | (parameter_name, data_dict_param) :: items' =>
      sddr_net <~ dict_get (single_parameter_sddr_list self) parameter_name ;;
      p <~ Sddr_Param_Net.forward qr sddr_net data_dict_param ;;
      forward_loop self items' (dict_set pred parameter_name p)
  end.

Definition set_regularization (self : t) (v : value R) : t :=
  Build (family_class self) (single_parameter_sddr_list self)
        (distribution_layer_type self) (Some v) (distribution_layer self).

Definition set_distribution_layer (self : t) (d : distribution) : t :=
  Build (family_class self) (single_parameter_sddr_list self)
        (distribution_layer_type self) (regularization self) (Some d).

(** [forward] mutates [self]; it returns the object as the call leaves
    it, also when an exception ends the call, and the call's outcome. *)
Definition forward (self : t) (datadict : dict (dict (tensor R)))
    : t * result distribution :=
  let self1 := set_regularization self (Num 0%R) in
  match forward_loop self1 datadict [::] with
  | Err e => (self1, Err e)
  | Ok pred =>
      match get_distribution_trafos (family_class self1) pred with
      | Err e => (self1, Err e)
      | Ok predicted_parameters =>
          match distribution_layer_type self1 predicted_parameters with
          | Err e => (self1, Err e)
          | Ok layer => (set_distribution_layer self1 layer, Ok layer)
          end
      end
  end.

Definition get_distribution_layer (self : t) : result distribution :=
  if distribution_layer self is Some d then Ok d
  else Err (AttributeError "distribution_layer").

Definition get_log_loss (self : t) (Y : tensor R) : result (tensor R) :=
  layer <~ get_distribution_layer self ;;
  lp <~ log_prob layer Y ;;
  Ok (neg lp).

Fixpoint regularization_loop (nets : seq (Sddr_Param_Net.t R))
    (regularization : value R) : result (value R) :=
  match nets with
  | [::] => Ok regularization
  | sddr_net :: nets' =>
      r <~ Sddr_Param_Net.get_regularization sddr_net ;;
      regularization' <~ py_add regularization (Ten r) ;;
      regularization_loop nets' regularization'
  end.

Definition get_regularization (self : t) : result (value R) :=
  regularization_loop (values (single_parameter_sddr_list self)) (Num 0%R).

End Class.
End SddrNet.

(** ** The arithmetic of the program: IEEE binary32

    The tensors of the program hold float32 numbers. The two functions
    whose claimed properties depend on rounding are embedded a second
    time with that arithmetic: every product and every sum is rounded to
    nearest even, and a matrix product accumulates its sum over the
    inner index in increasing order, from zero. *)

Module Float32.

Local Open Scope Z_scope.

Definition prec : Z := 24.
Definition emax : Z := 128.

Definition f32 : Type := spec_float.
Definition fadd : f32 -> f32 -> f32 := SFadd prec emax.
Definition fsub : f32 -> f32 -> f32 := SFsub prec emax.
Definition fmul : f32 -> f32 -> f32 := SFmul prec emax.
Definition zero : f32 := S754_zero false.
Definition of_Z (z : Z) : f32 := binary_normalize prec emax z 0 false.

Definition is_negative (x : f32) : bool := SFltb x zero.

(** A float32 tensor with two dimensions. *)
Record tensor : Type :=
  Tensor { rows : nat; cols : nat; entry : nat -> nat -> f32 }.

Definition of_rows (m n : nat) (l : seq (seq f32)) : tensor :=
  Tensor m n (fun i j => nth zero (nth [::] l i) j).


(** [A.T] *)
Definition transpose (A : tensor) : tensor :=
  Tensor (cols A) (rows A) (fun i j => entry A j i).

(** [A @ B] *)
Definition matmul (A B : tensor) : result tensor :=
  if cols A == rows B then
    Ok (Tensor (rows A) (cols B)
          (fun i j =>
             foldl (fun acc k => fadd acc (fmul (entry A i k) (entry B k j)))
                   zero (iota 0 (cols A))))
  else Err ShapeMismatch.

(** [A - B] on tensors of one shape, as the two operands of the
    subtraction in [_orthog_layer] are. *)
Definition sub (A B : tensor) : result tensor :=
  if (rows A == rows B) && (cols A == cols B) then
    Ok (Tensor (rows A) (cols A) (fun i j => fsub (entry A i j) (entry B i j)))
  else Err ShapeMismatch.

(** [Sddr_Param_Net._orthog_layer] *)
Definition _orthog_layer (Q Uhat : tensor) : result tensor :=
  Projection_Matrix <~ matmul Q (transpose Q) ;;
  PU <~ matmul Projection_Matrix Uhat ;;
  sub Uhat PU.

(** [Sddr_Param_Net.get_regularization], on the weights of the
    structured head and on [P] cast to float32. *)
Definition get_regularization (weights P : tensor) : result tensor :=
  wP <~ matmul weights P ;;
  matmul wP (transpose weights).



Definition is_identity (A : tensor) : bool :=
  (rows A == cols A)
  && all (fun i => all (fun j => SFeqb (entry A i j)
                                   (if i == j then of_Z 1 else zero))
                       (iota 0 (cols A)))
         (iota 0 (rows A)).

(** [Q^T Q] is the identity, exactly. *)
Definition orthonormal_columns (Q : tensor) : Prop :=
  exists2 G, matmul (transpose Q) Q = Ok G & is_identity G.



(** The penalty is not negative. *)
Definition penalty_nonnegative (weights P : tensor) : Prop :=
  forall r, get_regularization weights P = Ok r ->
    ~~ is_negative (entry r 0 0).

End Float32.

(** * Specification-level definitions *)

Section Specification.

Variable R : comNzRingType.
Variable qr : tensor R -> result (tensor R).
Variable linear_init : forall n : nat, 'rV[R]_n.
Local Open Scope ring_scope.

(** [torch.eye(k)] and [torch.zeros(m, n)], used to state properties. *)
Definition identity (k : nat) : tensor R := Tensor (1%:M : 'M[R]_k).
Definition zeros (m n : nat) : tensor R := Tensor (0 : 'M[R]_(m, n)).

(** [Q] has orthonormal columns: [Q^T Q] is the identity. *)
Definition orthonormal_columns (Q : tensor R) : Prop :=
  matmul (transpose Q) Q = Ok (identity (cols Q)).


(** [w . P . w^T] written out as the double sum of the quadratic form. *)
Definition quad_form (s : nat) (w : 'rV[R]_s) (P : tensor R) : R :=
  \sum_(i < s) \sum_(j < s) w 0 i * get P i j * w 0 j.

(** The penalty of one sub-network, as the specification defines it. *)
Definition penalty_spec (net : Sddr_Param_Net.t R) : R :=
  quad_form (weight (Sddr_Param_Net.structured_head net))
            (Sddr_Param_Net.P net).

(** [P] is square of the structured-feature-count size. *)
Definition P_square (net : Sddr_Param_Net.t R) : bool :=
  let s := in_features (Sddr_Param_Net.structured_head net) in
  (rows (Sddr_Param_Net.P net) == s) && (cols (Sddr_Param_Net.P net) == s).

(** The number a value stands for: itself, or the entry of a 1 x 1
    tensor. *)
Definition scalar_of (v : value R) : option R :=
  match v with
  | Num c => Some c
  | Ten t =>
      if (rows t == 1%N) && (cols t == 1%N) then Some (get t 0 0) else None
  end.

(** What construction establishes: the dict of deep models has distinct
    names, and the flag records whether it is non-empty. *)
Definition constructed (self : Sddr_Param_Net.t R) : Prop :=
  uniq (keys (Sddr_Param_Net.deep_models_dict self))
  /\ Sddr_Param_Net._deep_models_exist self
     = (size (Sddr_Param_Net.deep_models_dict self) != 0%N).

(** *** Matrix algebra on shaped tensors

    The operations the specification names, taken from MathComp's matrix
    algebra: product [*m], sum [+], block row [row_mx], sub-matrix
    [colsub]. They say what the tensor operations of the program
    compute. *)



(** [A] and [B] side by side. *)
Definition hcat_spec (A B : tensor R) : result (tensor R) :=
  if rows A =P rows B is ReflectT e then
    Ok (Tensor (row_mx (data A) (castmx (esym e, erefl (cols B)) (data B))))
  else Err ShapeMismatch.

(** The tensors of a non-empty list side by side, in order. *)
Definition concat_spec (ts : seq (tensor R)) : result (tensor R) :=
  if ts is t :: ts' then
    foldl (fun acc t' => a <~ acc ;; hcat_spec a t') (Ok t) ts'
  else Err EmptyTensorList.

(** Column [j] of the group [start:stop] is column [start + j] of the
    matrix, the bounds being clamped to its width [n]. *)
Definition slice_index (n start stop : nat)
    (j : 'I_(minn stop n - minn start (minn stop n))) : 'I_n.
Proof.
apply: (@Ordinal n (minn start (minn stop n) + j)).
have := ltn_ord j; rewrite ltn_subRL => /leq_trans; apply.
exact: geq_minr.
Defined.

(** The columns of one group. *)
Definition columns_spec (X : tensor R) (sl : slice) : tensor R :=
  Tensor (colsub (@slice_index (cols X) sl.1 sl.2) (data X)).

(** The projection of [U] onto the orthogonal complement of the columns
    of [Q]: [U] minus its image under the projection matrix [Q Q^T]. *)
Definition complement_spec (Q U : tensor R) : result (tensor R) :=
  if rows Q =P rows U is ReflectT e then
    let U' := castmx (esym e, erefl (cols U)) (data U) in
    Ok (Tensor (U' - (data Q *m (data Q)^T) *m U'))
  else Err ShapeMismatch.

(** *** The prediction as the specification describes it *)

(** Step 4b: project onto the orthogonal complement of the QR basis of
    the concatenated column groups, when the pattern is non-empty. *)
Definition project_out (pattern : seq slice) (X U : tensor R)
    : result (tensor R) :=
  if pattern is [::] then Ok U
  else
    X_sub <~ concat_spec [seq columns_spec X sl | sl <- pattern] ;;
    Q <~ qr X_sub ;;
    complement_spec Q U.

(** Steps 4a and 4b for one registered deep sub-model. *)
Definition deep_contribution (self : Sddr_Param_Net.t R)
    (batch : dict (tensor R)) (X : tensor R)
    (entry : string * Sddr_Param_Net.deep_model R) : result (tensor R) :=
  input <~ dict_get batch entry.1 ;;
  Uhat <~ entry.2 input ;;
  pattern <~ dict_get (Sddr_Param_Net.orthogonalization_pattern self) entry.1 ;;
  project_out pattern X Uhat.

Fixpoint mapM {A B} (f : A -> result B) (s : seq A) : result (seq B) :=
  match s with
  | [::] => Ok [::]
  | a :: s' => b <~ f a ;; bs <~ mapM f s' ;; Ok (b :: bs)
  end.



(** *** The composite network *)

(** The object after a sequence of [forward] calls. *)
Definition run_forwards (self : SddrNet.t R)
    (calls : seq (dict (dict (tensor R)))) : SddrNet.t R :=
  foldl (fun s datadict => (SddrNet.forward qr s datadict).1) self calls.

(** The outcome of [forward] once the loop has produced [pred]. *)
Definition distribution_of (self : SddrNet.t R) (pred : dict (value R))
    : result (SddrNet.distribution R) :=
  predicted_parameters <~
    SddrNet.get_distribution_trafos (SddrNet.family_class self) pred ;;
  SddrNet.distribution_layer_type self predicted_parameters.

(** *** Three statements of the specification that the code does not
    satisfy, as the specification words them *)

(** A deep sub-model whose actual output width differs from its
    declared width makes [predict] raise. *)
Definition width_mismatch_raises (self : Sddr_Param_Net.t R)
    (deep_shapes : dict nat) (batch : dict (tensor R)) : Prop :=
  forall name f declared input out,
    dict_get (Sddr_Param_Net.deep_models_dict self) name = Ok f ->
    dict_get deep_shapes name = Ok declared ->
    dict_get batch name = Ok input ->
    f input = Ok out ->
    cols out != declared ->
    ~~ is_ok (Sddr_Param_Net.forward qr self batch).

(** Before any [forward] call, [log_loss] and [regularization] fail. *)
Definition queries_fail_before_forward (family : SddrNet.family R)
    (network_info_dict : dict (SddrNet.network_info R)) : Prop :=
  forall self Y,
    SddrNet.__init__ linear_init family network_info_dict = Ok self ->
    ~~ is_ok (SddrNet.get_log_loss self Y)
    /\ ~~ is_ok (SddrNet.get_regularization self).

(** Constructing a composite network without any distribution parameter
    fails. *)
Definition empty_registry_rejected (family : SddrNet.family R) : Prop :=
  ~~ is_ok (SddrNet.__init__ linear_init family [::]).

End Specification.

Arguments P_square {R} net.
Arguments penalty_spec {R} net.

Section SignSpecification.

Variable R : numDomainType.
Local Open Scope ring_scope.

(** [P] is positive semi-definite: its quadratic form is non-negative
    on every row vector of its size. *)
Definition positive_semidefinite (P : tensor R) : Prop :=
  forall x : 'rV[R]_(rows P), 0 <= quad_form x P.

End SignSpecification.

(** * Concrete networks, over the integers *)

Module Examples.

Local Open Scope ring_scope.

(** On a matrix whose columns are already orthonormal, a QR
    factorization may return the matrix itself as the basis. *)
Definition qr_keep : tensor int -> result (tensor int) := fun X => Ok X.

(** Every fresh weight is 1. *)
Definition ones_init (n : nat) : 'rV[int]_n := const_mx 1.

Definition ones (m n : nat) : tensor int :=
  Tensor (const_mx 1 : 'M[int]_(m, n)).

(** The column [1; 0]. *)
Definition first_column : tensor int :=
  Tensor (col_mx 1%:M 0 : 'M[int]_(1 + 1, 1)).

(** A deep model that returns its input: its actual output width is the
    width of the input it is given. *)
Definition identity_model : Sddr_Param_Net.deep_model int := fun x => Ok x.

(** One deep model of declared width 3, orthogonalized against the
    first structured column. *)
Definition net_orth : Sddr_Param_Net.t int :=
  Sddr_Param_Net.__init__ ones_init
    [:: ("a"%string, identity_model)] [:: ("a"%string, 3%N)] 1
    [:: ("a"%string, [:: (0%N, 1%N)])] (Tensor (1%:M : 'M[int]_1)).

Definition batch_orth : dict (tensor int) :=
  [:: ("structured"%string, first_column); ("a"%string, ones 2 3)].

(** One deep model declared of width 3 that returns width 2. *)
Definition models_one : dict (Sddr_Param_Net.deep_model int) :=
  [:: ("a"%string, identity_model)].
Definition shapes_one : dict nat := [:: ("a"%string, 3%N)].
Definition pattern_one : dict (seq slice) := [:: ("a"%string, [::])].
Definition batch_one : dict (tensor int) :=
  [:: ("structured"%string, ones 4 1); ("a"%string, ones 4 2)].

(** Two deep models declared of widths 3 and 2 that return widths 2
    and 3. *)
Definition models_two : dict (Sddr_Param_Net.deep_model int) :=
  [:: ("a"%string, identity_model); ("b"%string, identity_model)].
Definition shapes_two : dict nat := [:: ("a"%string, 3%N); ("b"%string, 2%N)].
Definition pattern_two : dict (seq slice) :=
  [:: ("a"%string, [::]); ("b"%string, [::])].
Definition net_two : Sddr_Param_Net.t int :=
  Sddr_Param_Net.__init__ ones_init models_two shapes_two 1 pattern_two
    (Tensor (1%:M : 'M[int]_1)).
Definition batch_two : dict (tensor int) :=
  [:: ("structured"%string, ones 4 1); ("a"%string, ones 4 2);
      ("b"%string, ones 4 3)].

(** A family whose transform is the identity and whose distribution
    accepts any parameters. *)
Definition toy_layer : dict (value int) -> result (SddrNet.distribution int) :=
  fun _ => Ok (SddrNet.Distribution (fun Y => Ok Y)).
Definition toy_family : SddrNet.family int :=
  SddrNet.Family (Ok toy_layer) (fun pred => Ok pred).

(** Parameters "loc" and "scale": one structured feature, no deep model,
    penalty matrix the 1 x 1 identity. *)
Definition info_plain : SddrNet.network_info int :=
  SddrNet.NetworkInfo [::] [::] 1 [::] (Tensor (1%:M : 'M[int]_1)).
Definition info_two : dict (SddrNet.network_info int) :=
  [:: ("loc"%string, info_plain); ("scale"%string, info_plain)].
Definition net_plain : Sddr_Param_Net.t int :=
  Sddr_Param_Net.__init__ ones_init [::] [::] 1 [::]
    (Tensor (1%:M : 'M[int]_1)).
Definition composite : SddrNet.t int :=
  SddrNet.Build toy_family
    [:: ("loc"%string, net_plain); ("scale"%string, net_plain)]
    toy_layer None None.
Definition empty_composite : SddrNet.t int :=
  SddrNet.Build toy_family [::] toy_layer None None.

Definition batch_plain : dict (tensor int) :=
  [:: ("structured"%string, ones 2 1)].
Definition datadict_loc : dict (dict (tensor int)) :=
  [:: ("loc"%string, batch_plain)].
Definition datadict_bogus : dict (dict (tensor int)) :=
  [:: ("loc"%string, batch_plain); ("bogus"%string, batch_plain)].

End Examples.


(** * Further specification-level definitions *)

Section FurtherSpecification.

Variable R : comNzRingType.
Variable linear_init : forall n : nat, 'rV[R]_n.

(** The number of columns [X[:, start:stop]] keeps of a tensor with [c]
    columns. *)
Definition slice_width (c : nat) (sl : slice) : nat :=
  minn sl.2 c - minn sl.1 (minn sl.2 c).

(** The raw output of one registered deep model on its input. *)
Definition raw_output (batch : dict (tensor R))
    (entry : string * Sddr_Param_Net.deep_model R) : result (tensor R) :=
  input <~ dict_get batch entry.1 ;;
  entry.2 input.

(** The sub-network the composite constructor builds from one value of
    [network_info_dict]. *)
Definition param_net_of (info : SddrNet.network_info R)
    : Sddr_Param_Net.t R :=
  Sddr_Param_Net.__init__ linear_init
    (SddrNet.info_deep_models_dict info) (SddrNet.info_deep_shapes info)
    (SddrNet.info_struct_shapes info)
    (SddrNet.info_orthogonalization_pattern info) (SddrNet.info_P info).

(** What one call of [get_log_loss] computes from a distribution. *)
Definition negative_log_prob (layer : SddrNet.distribution R)
    (Y : tensor R) : result (tensor R) :=
  lp <~ SddrNet.log_prob layer Y ;;
  Ok (neg lp).

End FurtherSpecification.

Module MoreExamples.

Local Open Scope ring_scope.

(** The integer matrix [[1, 7], [7, 49]], the outer product of (1, 7)
    with itself. *)
Definition rank_one_entry (i j : nat) : nat :=
  (if i == 0%N then 1%N else 7%N) * (if j == 0%N then 1%N else 7%N).

(** The same matrix as a tensor over a totally ordered ring. *)
Definition rank_one (R : realDomainType) : tensor R :=
  Tensor (\matrix_(i < 2, j < 2) (rank_one_entry i j)%:R).

(** A family that does not return its distribution layer type. *)
Definition failing_family : SddrNet.family int :=
  SddrNet.Family (Err (CollaboratorError "no layer")) (fun pred => Ok pred).

(** A basis without any column, on two rows. *)
Definition empty_basis : tensor int := Tensor (0 : 'M[int]_(2, 0)).

(** The batch of [batch_two] with one more entry that no model reads. *)
Definition batch_two_more : dict (tensor int) :=
  rcons Examples.batch_two ("unused"%string, Examples.ones 7 7).

(** Column groups of which the second lies outside a 3-column tensor. *)
Definition pattern_out_of_range : seq slice := [:: (0%N, 2%N); (5%N, 9%N)].

End MoreExamples.

(** Float32 inputs. *)
Module Float32Examples.

Import Float32.
Local Open Scope Z_scope.

(** 0.5, 0.1, 13.270114 and -1.8957311 as float32 numbers. *)
Definition half : f32 := S754_finite false 8388608 (-24).
Definition tenth : f32 := S754_finite false 13421773 (-27).
Definition w0 : f32 := S754_finite false 13914723 (-20).
Definition w1 : f32 := S754_finite true 15902545 (-23).


(** The weights (13.270114, -1.8957311) and the matrix
    [[1, 7], [7, 49]]. *)
Definition w2 : tensor := of_rows 1 2 [:: [:: w0; w1]].
Definition P2 : tensor :=
  Tensor 2 2 (fun i j => of_Z (Z.of_nat (MoreExamples.rank_one_entry i j))).

End Float32Examples.

(** * Theory *)

Section TensorTheory.

Variable R : comNzRingType.
Local Open Scope ring_scope.

Implicit Types (A B Q U : tensor R).

Lemma get_Tensor m n (M : 'M[R]_(m, n)) (i : 'I_m) (j : 'I_n) :
  get (Tensor M) i j = M i j.
Proof.
rewrite /get /= !insubT // => Hj Hi.
by congr (M _ _); exact: val_inj.
Qed.

Lemma mk_Tensor m n (M : 'M[R]_(m, n)) (f : nat -> nat -> R) :
  (forall (i : 'I_m) (j : 'I_n), f i j = M i j) -> mk m n f = Tensor M.
Proof. by move=> fM; congr Tensor; apply/matrixP=> i j; rewrite mxE. Qed.

Lemma matmulE m n p (M : 'M[R]_(m, n)) (N : 'M[R]_(n, p)) :
  matmul (Tensor M) (Tensor N) = Ok (Tensor (M *m N)).
Proof.
rewrite /matmul /= eqxx; congr Ok; apply: mk_Tensor => i j.
by rewrite mxE; apply: eq_bigr => k _; rewrite !get_Tensor.
Qed.

Lemma matmul_mismatch A B :
  cols A != rows B -> matmul A B = Err ShapeMismatch.
Proof. by rewrite /matmul => /negbTE ->. Qed.

Lemma matmul_ok A B C :
  matmul A B = Ok C -> [/\ cols A = rows B, rows C = rows A & cols C = cols B].
Proof. by rewrite /matmul; case: eqP => // e [] <-. Qed.

Lemma bidx_id a i : (i < a)%N -> bidx a i = i.
Proof. by rewrite /bidx; case: eqP => // ->; case: i. Qed.

Lemma bdim_same a : bdim a a = Some a.
Proof. by rewrite /bdim eqxx. Qed.

Lemma broadcastE (op : R -> R -> R) m n (M N : 'M[R]_(m, n)) :
  broadcast op (Tensor M) (Tensor N)
  = Ok (Tensor (\matrix_(i, j) op (M i j) (N i j))).
Proof.
rewrite /broadcast /= !bdim_same; congr Ok; apply: mk_Tensor => i j.
by rewrite !bidx_id // !get_Tensor mxE.
Qed.

Lemma subE m n (M N : 'M[R]_(m, n)) :
  sub (Tensor M) (Tensor N) = Ok (Tensor (M - N)).
Proof.
by rewrite /sub broadcastE; congr (Ok (Tensor _)); apply/matrixP=> i j; rewrite !mxE.
Qed.

Lemma addE m n (M N : 'M[R]_(m, n)) :
  add (Tensor M) (Tensor N) = Ok (Tensor (M + N)).
Proof.
by rewrite /add broadcastE; congr (Ok (Tensor _)); apply/matrixP=> i j; rewrite !mxE.
Qed.

Lemma scalar_add0 A : scalar_add 0 A = A.
Proof.
case: A => m n M; rewrite /scalar_add /=; congr Tensor.
by apply/matrixP=> i j; rewrite !mxE add0r.
Qed.


End TensorTheory.


Section ProjectorTheory.

Variable R : comNzRingType.
Local Open Scope ring_scope.

Implicit Types (Q U : tensor R).

Local Notation _orthog_layer := (@Sddr_Param_Net._orthog_layer R).

Lemma orthog_layerE n k m (Q : 'M[R]_(n, k)) (U : 'M[R]_(n, m)) :
  _orthog_layer (Tensor Q) (Tensor U) = Ok (Tensor (U - Q *m Q^T *m U)).
Proof.
by rewrite /Sddr_Param_Net._orthog_layer /transpose /= matmulE /= matmulE /= subE.
Qed.


Lemma orthog_layer_mismatch Q U :
  rows Q != rows U -> _orthog_layer Q U = Err ShapeMismatch.
Proof.
case: Q U => [n k Q] [n' m U] /= ne.
by rewrite /Sddr_Param_Net._orthog_layer /transpose /= matmulE /= matmul_mismatch.
Qed.







End ProjectorTheory.

Section OperationsTheory.

Variable R : comNzRingType.
Local Open Scope ring_scope.

Implicit Types (A B C Q U X : tensor R).

(** *** What the tensor operations compute *)




(** [torch.cat([A, B], 1)] is the block row of [A] and [B]. *)
Lemma hcat_specE A B : hcat A B = hcat_spec A B.
Proof.
case: A B => [m n M] [m' n' N]; rewrite /hcat /hcat_spec /=.
case: (m =P m') => [e|//]; case: m' / e N => N /=.
rewrite castmx_id; congr Ok; apply: mk_Tensor => i j.
rewrite mxE; case: splitP => k Hk; first by rewrite Hk get_Tensor.
by rewrite Hk addKn get_Tensor.
Qed.

Lemma cat_from_spec A (ts : seq (tensor R)) :
  cat_from A ts = foldl (fun acc t' => a <~ acc ;; hcat_spec a t') (Ok A) ts.
Proof.
elim: ts A => [|t ts IH] A //=; rewrite hcat_specE.
case: (hcat_spec A t) => [a|e] /=; first exact: IH.
by elim: ts {IH} => [|t' ts' IH'].
Qed.

(** [torch.cat(ts, 1)] puts the tensors side by side, in order. *)
Lemma cat1_spec (ts : seq (tensor R)) : cat1 ts = concat_spec ts.
Proof. by case: ts => [|t ts] //=; exact: cat_from_spec. Qed.

(** [X[:, start:stop]] is the sub-matrix of the columns of the group. *)
Lemma slice_cols_spec X sl : slice_cols X sl = columns_spec X sl.
Proof.
case: X => [m n M]; rewrite /slice_cols /columns_spec /=.
apply: mk_Tensor => i j; rewrite !mxE.
by rewrite -(get_Tensor M i (slice_index j)).
Qed.

(** The layer subtracts from [Uhat] its image under [Q Q^T]. *)
Lemma orthog_layer_complement Q U :
  Sddr_Param_Net._orthog_layer Q U = complement_spec Q U.
Proof.
case: (eqVneq (rows Q) (rows U)) => [e|ne]; last first.
  rewrite orthog_layer_mismatch // /complement_spec.
  by case: eqP ne => // ->; rewrite eqxx.
case: Q U e => [n k Q] [n' m U] /= e; rewrite /complement_spec /=.
case: (n =P n') => [{}e|//]; case: n' / e U => U /=.
by rewrite castmx_id orthog_layerE.
Qed.





End OperationsTheory.

Section PenaltyTheory.

Variable R : comNzRingType.
Local Open Scope ring_scope.

Implicit Types (net : Sddr_Param_Net.t R) (self : SddrNet.t R).

Lemma quad_formE s (w : 'rV[R]_s) (Pm : 'M[R]_s) :
  (w *m Pm *m w^T) 0 0 = quad_form w (Tensor Pm).
Proof.
rewrite /quad_form exchange_big mxE /=; apply: eq_bigr => j _.
rewrite !mxE mulr_suml; apply: eq_bigr => i _.
by rewrite get_Tensor.
Qed.

Lemma get_regularizationE net :
  P_square net ->
  exists2 r : 'M[R]_1,
    Sddr_Param_Net.get_regularization net = Ok (Tensor r)
    & r 0 0 = penalty_spec net.
Proof.
case: net => [[p q Pm] models pat [s w] dh flag].
rewrite /P_square /penalty_spec /Sddr_Param_Net.get_regularization /=.
case/andP=> /eqP ep /eqP eq; subst p q.
exists (w *m Pm *m w^T); last exact: quad_formE.
by rewrite matmulE /transpose /= matmulE.
Qed.

Lemma scalar_of_Tensor (r : 'M[R]_1) : scalar_of (Ten (Tensor r)) = Some (r 0 0).
Proof. by rewrite /= (get_Tensor r ord0 ord0). Qed.

Lemma py_add_scalar (acc : value R) (r : 'M[R]_1) c :
  scalar_of acc = Some c ->
  exists2 v, py_add acc (Ten (Tensor r)) = Ok v
             & scalar_of v = Some (c + r 0 0).
Proof.
case: acc => [x [<-]|[m n M]] /=.
  exists (Ten (scalar_add x (Tensor r))) => //.
  by rewrite /scalar_add scalar_of_Tensor !mxE.
case: ifP => // /andP[/eqP em /eqP en] [<-].
subst m n.
exists (Ten (Tensor (M + r))); first by rewrite addE.
by rewrite scalar_of_Tensor (get_Tensor M ord0 ord0) mxE.
Qed.

Lemma regularization_loop_sum (nets : seq (Sddr_Param_Net.t R)) acc c :
  all P_square nets -> scalar_of acc = Some c ->
  exists2 v, SddrNet.regularization_loop nets acc = Ok v
             & scalar_of v = Some (c + \sum_(net <- nets) penalty_spec net).
Proof.
elim: nets acc c => [|net nets IH] acc c /=.
  by move=> _ Hc; exists acc => //; rewrite big_nil addr0.
case/andP=> /get_regularizationE[r -> Hr] Hnets Hc /=.
have [v -> Hv] /= := py_add_scalar r Hc.
have [v' -> Hv'] := IH _ _ Hnets Hv; exists v' => //.
by rewrite Hv' big_cons -Hr addrA.
Qed.


End PenaltyTheory.

Section PenaltySign.

Variable R : numDomainType.
Local Open Scope ring_scope.

(** C7, with exact arithmetic. When the penalty matrix is square of the
    structured-feature-count size and positive semi-definite, the
    penalty is returned and is non-negative, whatever the structured
    weights are. With float32 rounding a penalty whose exact value is
    close to zero may come out negative, see
    [Float32.penalty_nonnegative]. *)
Theorem get_regularization_nonneg (net : Sddr_Param_Net.t R) :
  P_square net -> positive_semidefinite (Sddr_Param_Net.P net) ->
  exists2 r : 'M[R]_1,
    Sddr_Param_Net.get_regularization net = Ok (Tensor r) & 0 <= r 0 0.
Proof.
move=> sq psd; have [r Hr Er] := get_regularizationE sq.
exists r => //; rewrite {r Hr}Er.
case: net sq psd => [[p q Pm] models pat [s w] dh flag].
rewrite /P_square /penalty_spec /positive_semidefinite /=.
by case/andP=> /eqP ep _; subst p => ->.
Qed.

End PenaltySign.

Section ForwardTheory.

Variable R : comNzRingType.
Variable qr : tensor R -> result (tensor R).
Local Open Scope ring_scope.

Implicit Types (self : Sddr_Param_Net.t R) (batch : dict (tensor R)).
Implicit Types (X U : tensor R) (Us : seq (tensor R)).

Import Sddr_Param_Net.

(** *** The loop against the specification's map *)

Lemma dict_get_cat V (pre post : dict V) k v :
  k \notin keys pre -> dict_get (pre ++ (k, v) :: post) k = Ok v.
Proof.
elim: pre => [|[k' v'] pre IH] /=; first by rewrite eqxx.
by rewrite inE negb_or eq_sym => /andP[/negbTE -> /IH].
Qed.

Lemma project_outE pattern X U :
  (if (0 < size pattern)%N then
     X_sliced <~ cat1 [seq slice_cols X sl | sl <- pattern] ;;
     Q <~ qr X_sliced ;;
     _orthog_layer Q U
   else Ok U) = project_out qr pattern X U.
Proof.
case: pattern => [|sl pattern] //; rewrite /project_out.
rewrite cat1_spec (eq_map (slice_cols_spec X)).
set c := concat_spec _; rewrite [size _]/=; case: c => //= Xs.
case: (qr Xs) => //= Q.
exact: orthog_layer_complement.
Qed.

Lemma forward_stepE self batch X k f :
  dict_get (deep_models_dict self) k = Ok f ->
  forward_step qr self batch X k = deep_contribution qr self batch X (k, f).
Proof.
rewrite /forward_step /deep_contribution => -> /=.
case: (dict_get batch k) => //= input; case: (f input) => //= Uhat.
by case: (dict_get _ k) => //= pattern; rewrite project_outE.
Qed.

Lemma forward_loopE self batch X pre entries Us :
  deep_models_dict self = pre ++ entries ->
  uniq (keys (deep_models_dict self)) ->
  forward_loop qr self batch X (keys entries) Us
  = (Utildes <~ mapM (deep_contribution qr self batch X) entries ;;
     Ok (Us ++ Utildes)).
Proof.
elim: entries pre Us => [|[k f] entries IH] pre Us /=.
  by move=> _ _; rewrite cats0.
move=> Hd Hu.
have Hk : k \notin keys pre.
  move: Hu; rewrite Hd /keys map_cat cat_uniq /= => /and3P[_ + _].
  by rewrite negb_or => /andP[].
have Hf : dict_get (deep_models_dict self) k = Ok f by rewrite Hd dict_get_cat.
rewrite (forward_stepE _ _ Hf).
case: (deep_contribution _ _ _ _) => //= Ut.
rewrite (IH (rcons pre (k, f))) ?cat_rcons //.
by case: (mapM _ _) => //= Uts; rewrite cat_rcons.
Qed.


(** The constructor establishes [constructed] from a dict of deep models
    with distinct names, whatever weights the layers start from. *)
Lemma init_constructed (linear_init : forall n : nat, 'rV[R]_n)
    models shapes s pattern P :
  uniq (keys models) ->
  constructed (__init__ linear_init models shapes s pattern P).
Proof. by rewrite /constructed /__init__; case: models. Qed.

(** Adding the number 0, as the code does when no deep model exists,
    returns the structured prediction itself. *)
Lemma py_add_0 X : py_add (Ten X) (Num 0) = Ok (Ten X).
Proof. by rewrite /= scalar_add0. Qed.




End ForwardTheory.

Section WidthTheory.

Variable R : comNzRingType.
Variable qr : tensor R -> result (tensor R).
Variable linear_init : forall n : nat, 'rV[R]_n.
Local Open Scope ring_scope.

Import Sddr_Param_Net.

Lemma hcat_cols (A B C : tensor R) :
  hcat A B = Ok C -> cols C = (cols A + cols B)%N.
Proof. by rewrite /hcat; case: ifP => // _ [<-]. Qed.

Lemma cat_from_cols (acc : tensor R) ts U :
  cat_from acc ts = Ok U -> cols U = (cols acc + sumn [seq cols t | t <- ts])%N.
Proof.
elim: ts acc => [|t ts IH] acc /=; first by case=> <-; rewrite addn0.
case E: (hcat acc t) => [acc'|] //= /IH ->.
by rewrite (hcat_cols E) addnA.
Qed.

(** The width of a concatenation is the total width of its parts. *)
Lemma cat1_cols (ts : seq (tensor R)) U :
  cat1 ts = Ok U -> cols U = sumn [seq cols t | t <- ts].
Proof. by case: ts => [|t ts] //= /cat_from_cols. Qed.

(** C2, as the code has it. The deep head is sized by the sum of the
    declared widths. Once the deep sub-models, the orthogonalization and
    the concatenation have run, a total actual width different from the
    total declared width makes [forward] raise a shape mismatch at the
    deep head; when the totals agree the deep head accepts the
    concatenation, whatever the individual widths are. *)
Theorem forward_total_width_mismatch models shapes s pattern P batch X Us U :
  let self := __init__ linear_init models shapes s pattern P in
  size models != 0%N ->
  dict_get batch "structured" = Ok X ->
  forward_loop qr self batch X (keys models) [::] = Ok Us ->
  cat1 Us = Ok U ->
  (sumn [seq cols t | t <- Us] != sumn (values shapes) ->
     forward qr self batch = Err ShapeMismatch)
  /\ (sumn [seq cols t | t <- Us] = sumn (values shapes) ->
        exists2 head, deep_head self = Some head & is_ok (linear head U)).
Proof.
move=> self; rewrite /self /__init__ => -> /= HX HUs HU.
have Hc := cat1_cols HU.
split=> [ne|e].
  rewrite /forward HX /= HUs /= HU /= /linear matmul_mismatch //=.
  by rewrite Hc.
exists (MkLinear (linear_init (sumn (values shapes)))) => //.
by rewrite /linear /matmul /= Hc e eqxx.
Qed.

End WidthTheory.

Section CompositeTheory.

Variable R : comNzRingType.
Variable qr : tensor R -> result (tensor R).
Variable linear_init : forall n : nat, 'rV[R]_n.
Local Open Scope ring_scope.

Implicit Types (self : SddrNet.t R) (datadict : dict (dict (tensor R))).
Implicit Types (pred : dict (value R)).

Import SddrNet.

(** *** Dictionaries *)

Lemma mem_keys_dict_set V (d : dict V) k v :
  keys (dict_set d k v) =i k :: keys d.
Proof.
elim: d => [|[k' v'] d IH] x //=.
case: (eqVneq k' k) => [->|ne] /=; first by rewrite !inE orbA orbb.
by rewrite !inE IH !inE orbCA.
Qed.

(** *** The loop of [forward] *)

Lemma forward_loop_frame self v items pred :
  forward_loop qr (set_regularization self v) items pred
  = forward_loop qr self items pred.
Proof.
elim: items pred => [|[name batch] items IH] pred //=.
case: (dict_get _ name) => //= net.
by case: (Sddr_Param_Net.forward qr net batch) => //= p.
Qed.

Lemma forward_loop_cat self pre post pred :
  forward_loop qr self (pre ++ post) pred
  = (pred' <~ forward_loop qr self pre pred ;; forward_loop qr self post pred').
Proof.
elim: pre pred => [|[name batch] pre IH] pred //=.
case: (dict_get _ name) => //= net.
by case: (Sddr_Param_Net.forward qr net batch) => //= p.
Qed.

Lemma dict_get_missing V (d : dict V) k :
  k \notin keys d -> dict_get d k = Err (KeyError k).
Proof.
elim: d => [|[k' v] d IH] //=.
by rewrite inE negb_or eq_sym => /andP[/negbTE -> /IH].
Qed.

Lemma forward_loop_keys self items pred pred' :
  forward_loop qr self items pred = Ok pred' ->
  keys pred' =i keys pred ++ keys items.
Proof.
elim: items pred => [|[name batch] items IH] pred /=.
  by case=> <- x; rewrite cats0.
case: (dict_get _ name) => //= net.
case: (Sddr_Param_Net.forward qr net batch) => //= p /IH E x.
by rewrite E !mem_cat mem_keys_dict_set !inE orbA [(x == name) || _]orbC.
Qed.

Lemma forwardE self datadict :
  (forward qr self datadict).2
  = (pred <~ forward_loop qr self datadict [::] ;; distribution_of self pred).
Proof.
rewrite /forward forward_loop_frame /distribution_of.
case: (forward_loop _ _ _ _) => //= pred.
case: (get_distribution_trafos _ _) => //= pp.
by case: (distribution_layer_type _ _).
Qed.

(** C9. [forward] follows the keys of the batch mapping. A key naming no
    registered sub-network aborts the pass, with the lookup failure for
    that key once the entries before it have been processed. When the
    loop completes, the predictions handed to the family's transform
    have exactly the keys of the batch mapping: a registered parameter
    absent from the batch mapping has no prediction in it. *)
Theorem forward_follows_batch_keys self datadict :
  (forall pre name batch post,
     datadict = pre ++ (name, batch) :: post ->
     name \notin keys (single_parameter_sddr_list self) ->
     ~~ is_ok (forward qr self datadict).2
     /\ (forall pred, forward_loop qr self pre [::] = Ok pred ->
           (forward qr self datadict).2 = Err (KeyError name)))
  /\ (forall pred,
        forward_loop qr self datadict [::] = Ok pred ->
        [/\ keys pred =i keys datadict,
            forall name, name \in keys (single_parameter_sddr_list self) ->
              name \notin keys datadict -> name \notin keys pred
          & (forward qr self datadict).2 = distribution_of self pred]).
Proof.
split=> [pre name batch post -> Hname|pred Hpred]; last first.
  have Hk := forward_loop_keys Hpred.
  by split=> [//|name _|]; rewrite ?Hk // forwardE Hpred.
rewrite forwardE forward_loop_cat.
case: (forward_loop qr self pre [::]) => [pred|e] /=; last by split.
by rewrite dict_get_missing //=; split=> // pred' _.
Qed.

(** *** Frame of [forward] *)

Lemma forward_frame self datadict :
  let self' := (forward qr self datadict).1 in
  [/\ family_class self' = family_class self,
      single_parameter_sddr_list self' = single_parameter_sddr_list self,
      distribution_layer_type self' = distribution_layer_type self
    & regularization self' = Some (Num 0)].
Proof.
rewrite /forward; case: (forward_loop _ _ _ _) => //= pred.
case: (get_distribution_trafos _ _) => //= pp.
by case: (distribution_layer_type _ _).
Qed.

(** C10. [forward] writes only the scratch attribute, which it resets to
    zero, and the stored distribution instance: the registry of
    sub-networks, with their structured weights and penalty matrices, is
    untouched, so [get_regularization] returns the same value after any
    number of [forward] calls as before them. *)
Theorem forward_preserves_regularization self calls :
  (forall datadict,
     let self' := (forward qr self datadict).1 in
     [/\ single_parameter_sddr_list self' = single_parameter_sddr_list self,
         regularization self' = Some (Num 0)
       & get_regularization self' = get_regularization self])
  /\ single_parameter_sddr_list (run_forwards qr self calls)
     = single_parameter_sddr_list self
  /\ get_regularization (run_forwards qr self calls) = get_regularization self.
Proof.
have step s d : single_parameter_sddr_list (forward qr s d).1
                = single_parameter_sddr_list s.
  by case: (forward_frame s d).
split=> [datadict self'|].
  split; [exact: step | by case: (forward_frame self datadict) |].
  by rewrite /get_regularization step.
suff E : single_parameter_sddr_list (run_forwards qr self calls)
         = single_parameter_sddr_list self.
  by split=> //; rewrite /get_regularization E.
rewrite /run_forwards; elim: calls self => [|d calls IH] self //=.
by rewrite IH step.
Qed.

(** *** Queries before [forward] *)

Lemma init_attributes family info self :
  __init__ linear_init family info = Ok self ->
  regularization self = None /\ distribution_layer self = None.
Proof.
by rewrite /__init__; case: (get_distribution_layer_type _) => //= lt [<-].
Qed.

(** C5, as the code has it. On a freshly constructed network, before any
    [forward] call, [get_log_loss] fails: the distribution instance it
    reads does not exist yet. [get_regularization] does not read what
    [forward] stores: it returns a value in that state whenever the
    penalty matrices are square of the structured-feature-count size. *)
Theorem log_loss_needs_forward family info self Y :
  __init__ linear_init family info = Ok self ->
  get_log_loss self Y = Err (AttributeError "distribution_layer")
  /\ (all (@P_square R) (values (single_parameter_sddr_list self)) ->
        exists2 v, get_regularization self = Ok v
          & scalar_of v
            = Some (\sum_(net <- values (single_parameter_sddr_list self))
                      penalty_spec net)).
Proof.
move=> /init_attributes[_ Hd]; split.
  by rewrite /get_log_loss /get_distribution_layer Hd.
move=> sq; have [v Hv Hs] := regularization_loop_sum (acc := Num 0) sq (erefl _).
by exists v => //; rewrite Hs add0r.
Qed.

(** C8, as the code has it. Constructing a composite network from an
    empty registry raises nothing of its own: when the family returns
    its distribution layer type, the constructor returns a network with
    no sub-network, whose regularization is the number 0 and whose
    [forward] on the empty batch mapping hands the empty prediction
    mapping to the family. *)
Theorem init_empty_registry family layer_type :
  get_distribution_layer_type family = Ok layer_type ->
  exists self,
    [/\ __init__ linear_init family [::] = Ok self,
        single_parameter_sddr_list self = [::],
        get_regularization self = Ok (Num 0)
      & (forward qr self [::]).2 = distribution_of self [::]].
Proof.
move=> Hlt; rewrite /__init__ Hlt /=.
by eexists; split; first by []; rewrite ?forwardE.
Qed.

End CompositeTheory.

(** * The theorems on the concrete networks *)

Section Instances.

Import Examples.
Local Open Scope ring_scope.




(** C2 refuted: declared widths 3 and 2, actual widths 2 and 3, and the
    pass returns a prediction. *)
Lemma width_mismatch_tolerated :
  ~ width_mismatch_raises qr_keep net_two shapes_two batch_two.
Proof.
by move/(_ "a"%string identity_model 3%N (ones 4 2) (ones 4 2)
           erefl erefl erefl erefl erefl).
Qed.

(** C2 as amended, on one deep model declared of width 3 that returns
    width 2. *)
Lemma forward_total_width_mismatch_witness :
  let self :=
    Sddr_Param_Net.__init__ ones_init models_one shapes_one 1 pattern_one
      (Tensor (1%:M : 'M[int]_1)) in
  size models_one != 0%N /\
  [/\ dict_get batch_one "structured" = Ok (ones 4 1),
      Sddr_Param_Net.forward_loop qr_keep self batch_one (ones 4 1)
        (keys models_one) [::] = Ok [:: ones 4 2],
      cat1 [:: ones 4 2] = Ok (ones 4 2),
      sumn [seq cols t | t <- [:: ones 4 2]] != sumn (values shapes_one)
    & Sddr_Param_Net.forward qr_keep self batch_one = Err ShapeMismatch].
Proof.
move=> self; split; first by [].
have [H _] :=
  @forward_total_width_mismatch int qr_keep ones_init models_one shapes_one 1
    pattern_one (Tensor (1%:M : 'M[int]_1)) batch_one (ones 4 1)
    [:: ones 4 2] (ones 4 2) erefl erefl erefl erefl.
by split; [| | | |exact: H].
Defined.



(** C5 refuted: on the freshly constructed two-parameter network,
    [get_regularization] returns a value. *)
Lemma regularization_before_forward :
  ~ queries_fail_before_forward ones_init toy_family info_two.
Proof. by move/(_ composite (ones 2 1) erefl) => []. Qed.

(** C5 as amended, on the freshly constructed two-parameter network. *)
Lemma log_loss_needs_forward_witness :
  [/\ SddrNet.__init__ ones_init toy_family info_two = Ok composite,
      SddrNet.get_log_loss composite (ones 2 1)
      = Err (AttributeError "distribution_layer"),
      all P_square (values (SddrNet.single_parameter_sddr_list composite))
    & exists2 v, SddrNet.get_regularization composite = Ok v
        & scalar_of v
          = Some (\sum_(net <- values
                            (SddrNet.single_parameter_sddr_list composite))
                    penalty_spec net)].
Proof.
have [H1 H2] :=
  @log_loss_needs_forward int ones_init toy_family info_two composite
    (ones 2 1) erefl.
by split=> //; exact: H2.
Defined.


Lemma identity_1_psd :
  positive_semidefinite (Sddr_Param_Net.P net_plain).
Proof.
move=> x; rewrite /quad_form /= !big_ord1.
by rewrite (get_Tensor (1%:M : 'M[int]_1) ord0 ord0) mxE mulr1 -expr2 sqr_ge0.
Defined.

(** C7 on a sub-network whose penalty matrix is the 1 x 1 identity. *)
Lemma get_regularization_nonneg_witness :
  [/\ P_square net_plain,
      positive_semidefinite (Sddr_Param_Net.P net_plain)
    & exists2 r : 'M[int]_1,
        Sddr_Param_Net.get_regularization net_plain = Ok (Tensor r)
        & 0 <= r 0 0].
Proof.
split=> //; first exact: identity_1_psd.
exact: (@get_regularization_nonneg int net_plain erefl identity_1_psd).
Defined.

(** C8 refuted: the constructor returns a network for the empty
    registry. *)
Lemma empty_registry_accepted :
  ~ empty_registry_rejected ones_init toy_family.
Proof. by []. Qed.

(** C8 as amended, on the toy family. *)
Lemma init_empty_registry_witness :
  SddrNet.get_distribution_layer_type toy_family = Ok toy_layer
  /\ exists self,
       [/\ SddrNet.__init__ ones_init toy_family [::] = Ok self,
           SddrNet.single_parameter_sddr_list self = [::],
           SddrNet.get_regularization self = Ok (Num 0)
         & (SddrNet.forward qr_keep self [::]).2 = distribution_of self [::]].
Proof.
split=> //.
exact: (@init_empty_registry int qr_keep ones_init toy_family toy_layer erefl).
Defined.

(** C9 on the two-parameter network: the key "bogus" aborts the pass
    with its lookup failure, and a batch mapping holding only "loc"
    yields predictions without "scale". *)
Lemma forward_follows_batch_keys_witness :
  [/\ "bogus"%string
        \notin keys (SddrNet.single_parameter_sddr_list composite),
      ~~ is_ok (SddrNet.forward qr_keep composite datadict_bogus).2,
      (SddrNet.forward qr_keep composite datadict_bogus).2
      = Err (KeyError "bogus")
    & exists pred,
        [/\ SddrNet.forward_loop qr_keep composite datadict_loc [::] = Ok pred,
            "scale"%string
              \in keys (SddrNet.single_parameter_sddr_list composite),
            "scale"%string \notin keys datadict_loc,
            "scale"%string \notin keys pred
          & (SddrNet.forward qr_keep composite datadict_loc).2
            = distribution_of composite pred]].
Proof.
have [Ha _] := forward_follows_batch_keys qr_keep composite datadict_bogus.
have [Hno Hkey] :=
  Ha [:: ("loc"%string, batch_plain)] "bogus"%string batch_plain [::]
     erefl erefl.
have [_ Hb] := forward_follows_batch_keys qr_keep composite datadict_loc.
split; [by [] | exact: Hno | exact: (Hkey _ erefl) |].
have [_ Hskip Hout] := Hb _ erefl.
by eexists; split; [reflexivity | | | exact: Hskip | exact: Hout].
Defined.

(** The float32 inputs are float32 numbers. *)
Lemma float32_inputs_valid :
  all (valid_binary Float32.prec Float32.emax)
      [:: Float32Examples.half; Float32Examples.tenth;
          Float32Examples.w0; Float32Examples.w1].
Proof. by vm_compute. Qed.



Lemma rank_one_psd (R : realDomainType) :
  positive_semidefinite (MoreExamples.rank_one R).
Proof.
move=> x; rewrite /quad_form /=.
pose c (i : 'I_2) : R := (if i == 0 :> nat then 1%N else 7%N)%:R.
have -> : \sum_(i < 2) \sum_(j < 2)
            x 0 i * get (MoreExamples.rank_one R) i j * x 0 j
          = (\sum_(i < 2) x 0 i * c i) * (\sum_(j < 2) x 0 j * c j).
  rewrite mulr_suml; apply: eq_bigr => i _.
  rewrite mulr_sumr; apply: eq_bigr => j _.
  rewrite get_Tensor mxE /MoreExamples.rank_one_entry natrM.
  by rewrite -!mulrA; congr (_ * (_ * _)); rewrite mulrC.
set s := \sum_(i < 2) _.
by rewrite -(expr2 s) sqr_ge0.
Qed.

(** C7 refuted in the program's arithmetic: the matrix [[1, 7], [7,
    49]] is positive semi-definite, and with the weights (13.270114,
    -1.8957311) the float32 penalty is negative. *)
Lemma penalty_negative_binary32 :
  (forall R : realDomainType,
     positive_semidefinite (MoreExamples.rank_one R))
  /\ ~ Float32.penalty_nonnegative Float32Examples.w2 Float32Examples.P2.
Proof.
split; first exact: rank_one_psd.
by move/(_ _ erefl); vm_compute.
Qed.

End Instances.

(** * Further properties of the orthogonalization layer *)

Section ProjectorExtras.

Variable R : comNzRingType.
Local Open Scope ring_scope.

Implicit Types (Q U C : tensor R).

Local Notation _orthog_layer := (@Sddr_Param_Net._orthog_layer R).

Lemma fixes_mx n k m (Q : 'M[R]_(n, k)) (U : 'M[R]_(n, m)) :
  Q^T *m U = 0 -> U - Q *m Q^T *m U = U.
Proof. by move=> QU; rewrite -mulmxA QU mulmx0 subr0. Qed.

(** X1. The layer raises exactly when [Q] and [Uhat] differ in their number
    of rows, and its result has the shape of [Uhat]. *)
Theorem orthog_layer_defined Q U :
  is_ok (_orthog_layer Q U) = (rows Q == rows U)
  /\ (forall Utilde, _orthog_layer Q U = Ok Utilde ->
        rows Utilde = rows U /\ cols Utilde = cols U).
Proof.
case: (eqVneq (rows Q) (rows U)) => [e|ne]; last first.
  by rewrite orthog_layer_mismatch.
case: Q U e => [n k Q] [n' m U] /= e; case: n' / e U => U.
by rewrite orthog_layerE; split=> // Utilde [<-].
Qed.

(** X4. With a basis that has no column the layer returns [Uhat]. *)
Theorem orthog_layer_empty_basis Q U :
  cols Q = 0%N -> rows Q = rows U -> _orthog_layer Q U = Ok U.
Proof.
case: Q U => [n k Q] [n' m U] /= ek e; case: n' / e U => U.
subst k.
by rewrite orthog_layerE fixes_mx // [Q^T]flatmx0 mul0mx.
Qed.

End ProjectorExtras.

(** * Further properties of the per-parameter network *)

Section ParamNetExtras.

Variable R : comNzRingType.
Variable qr : tensor R -> result (tensor R).
Local Open Scope ring_scope.

Implicit Types (self : Sddr_Param_Net.t R) (batch : dict (tensor R)).
Implicit Types (X U : tensor R) (Us : seq (tensor R)).

Import Sddr_Param_Net.

Lemma dict_get_mem V (d : dict V) k v : dict_get d k = Ok v -> k \in keys d.
Proof.
elim: d => [|[k' v'] d IH] //=; rewrite inE eq_sym.
by case: eqP => //= _ /IH.
Qed.

Lemma forward_step_covers self batch X k U :
  forward_step qr self batch X k = Ok U ->
  (k \in keys batch) && (k \in keys (orthogonalization_pattern self)).
Proof.
rewrite /forward_step; case: (dict_get _ k) => //= f.
case Hb: (dict_get batch k) => [input|] //=; case: (f input) => //= Uhat.
case Hp: (dict_get _ k) => [pattern|] //= _.
by rewrite (dict_get_mem Hb) (dict_get_mem Hp).
Qed.

Lemma forward_loop_covers self batch X ks Us Us' :
  forward_loop qr self batch X ks Us = Ok Us' ->
  all (fun k => (k \in keys batch)
                && (k \in keys (orthogonalization_pattern self))) ks.
Proof.
elim: ks Us => [|k ks IH] Us //=.
case E: (forward_step _ _ _ _ _) => [U|] //= /IH ->.
by rewrite (forward_step_covers E).
Qed.

(** X5. A pass that returns a prediction has found the design matrix under
    "structured" and, for every registered deep model, both its input in
    the batch and its entry in the orthogonalization pattern. *)
Theorem forward_ok_covers self batch v :
  constructed self -> forward qr self batch = Ok v ->
  ("structured"%string \in keys batch)
  /\ all (fun k => (k \in keys batch)
                   && (k \in keys (orthogonalization_pattern self)))
         (keys (deep_models_dict self)).
Proof.
case=> _ Hflag; rewrite /forward.
case HX: (dict_get batch _) => [X|] //=; rewrite (dict_get_mem HX) Hflag.
case: (deep_models_dict self) => [|entry entries]; first by [].
move: (keys _) => ks /=.
case E: (forward_loop _ _ _ _ _ _) => [Us|] //= _; split=> //.
exact: forward_loop_covers E.
Qed.

Lemma linear_cols (l : Linear R) X r : linear l X = Ok r -> cols r = 1%N.
Proof. by rewrite /linear => /matmul_ok[]. Qed.

(** X6. Whatever the network and the batch, a returned prediction is a
    tensor with exactly one column. *)
Theorem forward_one_column self batch v :
  forward qr self batch = Ok v -> exists2 t, v = Ten t & cols t = 1%N.
Proof.
rewrite /forward; case: (dict_get batch _) => [X|] //=.
case: (_deep_models_exist self) => /=; last first.
  by case E: (linear _ X) => [sp|] //= [<-]; exists (scalar_add 0 sp);
     rewrite //= (linear_cols E).
case: (forward_loop _ _ _ _ _ _) => //= Us; case: (cat1 Us) => //= U.
case: (get_deep_head self) => //= head.
case Ed: (linear head U) => [dp|] //=; case Es: (linear _ X) => [sp|] //=.
rewrite /add /broadcast (linear_cols Ed) (linear_cols Es) /=.
by case: (bdim _ _) => //= m [<-]; eexists.
Qed.

Lemma mapM_ext (f g : string * deep_model R -> result (tensor R)) entries :
  (forall entry, entry.1 \in keys entries -> f entry = g entry) ->
  mapM f entries = mapM g entries.
Proof.
elim: entries => [|entry entries IH] //= H.
rewrite H ?inE ?eqxx // IH // => e He.
by apply: H; rewrite inE He orbT.
Qed.

(** X7. When every registered deep model has an empty orthogonalization
    pattern, the loop collects the raw outputs of the models, in
    dictionary order, and never factorizes anything. *)
Theorem forward_loop_empty_patterns self batch X :
  uniq (keys (deep_models_dict self)) ->
  (forall k, k \in keys (deep_models_dict self) ->
     dict_get (orthogonalization_pattern self) k = Ok [::]) ->
  forward_loop qr self batch X (keys (deep_models_dict self)) [::]
  = mapM (raw_output batch) (deep_models_dict self).
Proof.
move=> Hu Hp; rewrite (@forward_loopE R qr self batch X [::] _ [::] erefl Hu).
have -> : mapM (deep_contribution qr self batch X) (deep_models_dict self)
          = mapM (raw_output batch) (deep_models_dict self).
  apply: mapM_ext => -[k f] /= /Hp Hk; rewrite /deep_contribution /raw_output /=.
  case: (dict_get batch k) => //= input; case: (f input) => //= Uhat.
  by rewrite Hk.
by case: (mapM (raw_output batch) _).
Qed.

Lemma cat_from_same_rows (acc : tensor R) ts :
  all (fun t => rows t == rows acc) ts ->
  exists2 U, cat_from acc ts = Ok U & rows U = rows acc.
Proof.
elim: ts acc => [|t ts IH] acc /=; first by exists acc.
case/andP=> /eqP Ht Hts; rewrite /hcat Ht eqxx /=.
set acc' := mk _ _ _; have [|U -> HU] := IH acc'; last by exists U.
by apply/sub_all: Hts => t' /=.
Qed.

(** X8. The column groups of a non-empty pattern are always sliced and
    concatenated without error: bounds beyond the width of [X] are
    clamped, and the result has the rows of [X] and the total width of
    the clamped groups. *)
Theorem sliced_columns_defined X (pattern : seq slice) :
  pattern <> [::] ->
  exists U,
    [/\ cat1 [seq slice_cols X sl | sl <- pattern] = Ok U,
        rows U = rows X
      & cols U = sumn [seq slice_width (cols X) sl | sl <- pattern]].
Proof.
case: pattern => [|sl pattern] // _.
have [|U HU Hr] :=
  @cat_from_same_rows (slice_cols X sl) [seq slice_cols X s | s <- pattern].
  by rewrite all_map; elim: pattern => //= s p ->; rewrite eqxx.
exists U; split=> //.
have /= -> := cat1_cols (ts := slice_cols X sl :: _) HU.
by congr (_ + sumn _)%N; rewrite -map_comp.
Qed.

Lemma forward_step_reads self batch1 batch2 X k :
  dict_get batch1 k = dict_get batch2 k ->
  forward_step qr self batch1 X k = forward_step qr self batch2 X k.
Proof. by rewrite /forward_step => ->. Qed.

Lemma forward_loop_reads self batch1 batch2 X ks Us :
  (forall k, k \in ks -> dict_get batch1 k = dict_get batch2 k) ->
  forward_loop qr self batch1 X ks Us = forward_loop qr self batch2 X ks Us.
Proof.
elim: ks Us => [|k ks IH] Us //= H.
rewrite (@forward_step_reads self batch1 batch2) ?H ?inE ?eqxx //.
case: (forward_step _ _ _ _ _) => //= U; apply: IH => k' Hk'.
by apply: H; rewrite inE Hk' orbT.
Qed.

(** X9. The pass reads the batch only under "structured" and under the names
    of the registered deep models: two batches that agree there give the
    same outcome. *)
Theorem forward_reads_only self batch1 batch2 :
  (forall k, k \in "structured"%string :: keys (deep_models_dict self) ->
     dict_get batch1 k = dict_get batch2 k) ->
  forward qr self batch1 = forward qr self batch2.
Proof.
move=> H; rewrite /forward -(H "structured"%string) ?inE ?eqxx //.
case: (dict_get batch1 _) => //= X.
rewrite (@forward_loop_reads self batch1 batch2) // => k Hk.
by apply: H; rewrite inE Hk orbT.
Qed.

(** X10. Without deep models the prediction is the design matrix times the
    structured weights, and nothing else: there is no bias, so a zero
    design matrix gives the zero prediction. *)
Theorem forward_structured_only self batch n
    (Xm : 'M[R]_(n, in_features (structured_head self))) :
  _deep_models_exist self = false ->
  dict_get batch "structured" = Ok (Tensor Xm) ->
  forward qr self batch
  = Ok (Ten (Tensor (Xm *m (weight (structured_head self))^T)))
  /\ (Xm = 0 -> forward qr self batch = Ok (Ten (zeros R n 1))).
Proof.
move=> Hflag HX.
have E : forward qr self batch
         = Ok (Ten (Tensor (Xm *m (weight (structured_head self))^T))).
  by rewrite /forward HX Hflag /= /linear /transpose /= matmulE /= scalar_add0.
by split=> // X0; rewrite E X0 mul0mx.
Qed.

End ParamNetExtras.

Section PenaltyExtras.

Variable R : comNzRingType.
Local Open Scope ring_scope.

Lemma get_regularization_ok (net : Sddr_Param_Net.t R) :
  is_ok (Sddr_Param_Net.get_regularization net) = P_square net.
Proof.
case: net => [[p q Pm] models pat [s w] dh flag].
rewrite /P_square /Sddr_Param_Net.get_regularization /matmul /= [s == p]eq_sym.
by case: (p == s) => //=; case: (q == s).
Qed.

Lemma regularization_loop_ok (nets : seq (Sddr_Param_Net.t R)) acc c :
  scalar_of acc = Some c ->
  is_ok (SddrNet.regularization_loop nets acc) = all P_square nets.
Proof.
elim: nets acc c => [|net nets IH] acc c //= Hc.
case sq: (P_square net); last first.
  by move: sq; rewrite -get_regularization_ok; case: (Sddr_Param_Net.get_regularization net).
have [r -> _] /= := get_regularizationE sq.
by have [v -> Hv] /= := py_add_scalar r Hc; exact: IH Hv.
Qed.

(** X11. The penalty of a sub-network is defined exactly when its matrix [P]
    is square of the structured-feature-count size, and the
    regularization of the composite network exactly when this holds for
    every registered sub-network. *)
Theorem get_regularization_defined :
  (forall net : Sddr_Param_Net.t R,
     is_ok (Sddr_Param_Net.get_regularization net) = P_square net)
  /\ (forall self : SddrNet.t R,
        is_ok (SddrNet.get_regularization self)
        = all P_square (values (SddrNet.single_parameter_sddr_list self))).
Proof.
split=> [net|self]; first exact: get_regularization_ok.
exact: (@regularization_loop_ok _ (Num 0) 0).
Qed.

End PenaltyExtras.

(** * Further properties of the composite network *)

Section CompositeExtras.

Variable R : comNzRingType.
Variable qr : tensor R -> result (tensor R).
Variable linear_init : forall n : nat, 'rV[R]_n.
Local Open Scope ring_scope.

Implicit Types (self : SddrNet.t R) (datadict : dict (dict (tensor R))).
Implicit Types (pred : dict (value R)).

Import SddrNet.

Lemma dict_set_fresh V (d : dict V) k v :
  k \notin keys d -> dict_set d k v = rcons d (k, v).
Proof.
elim: d => [|[k' v'] d IH] //=.
by rewrite inE negb_or eq_sym => /andP[/negbTE -> /IH ->].
Qed.

Lemma init_loop_fresh (items : dict (network_info R)) acc :
  uniq (keys acc ++ keys items) ->
  init_loop linear_init items acc
  = acc ++ [seq (kv.1, param_net_of linear_init kv.2) | kv <- items].
Proof.
elim: items acc => [|[k info] items IH] acc /=; first by rewrite !cats0.
move=> Hu; have Hk : k \notin keys acc.
  by move: Hu; rewrite cat_uniq /= negb_or => /and3P[_ /andP[]].
rewrite dict_set_fresh // IH ?cat_rcons //.
by rewrite /keys map_rcons cat_rcons.
Qed.

(** X12. When the family does not return its distribution layer type the
    constructor raises. When the constructor returns a network, for
    [network_info_dict] with distinct keys, the registry holds, for
    every parameter and in the same order, the sub-network built from
    that parameter's entries, so that every parameter name is found in
    the registry. *)
Theorem init_registers family (info : dict (network_info R)) :
  (~~ is_ok (get_distribution_layer_type family) ->
     ~~ is_ok (__init__ linear_init family info))
  /\ (forall self,
        __init__ linear_init family info = Ok self ->
        uniq (keys info) ->
        [/\ single_parameter_sddr_list self
            = [seq (kv.1, param_net_of linear_init kv.2) | kv <- info],
            keys (single_parameter_sddr_list self) = keys info
          & forall name v, dict_get info name = Ok v ->
              dict_get (single_parameter_sddr_list self) name
              = Ok (param_net_of linear_init v)]).
Proof.
rewrite /__init__; case: (get_distribution_layer_type family) => [lt|e];
  last by [].
split=> // self [<-] /= Hu; rewrite init_loop_fresh //=.
split=> //; first by rewrite /keys -map_comp.
elim: info {Hu} => [|[k info] items IH] //= name v.
by case: eqP => [_ [->]|_] //; exact: IH.
Qed.

(** X13. A pass that returns a distribution stores that same distribution:
    afterwards [get_log_loss] is the negated log-density of the returned
    instance, and the scratch attribute is the number 0. *)
Theorem forward_ready self datadict layer :
  (forward qr self datadict).2 = Ok layer ->
  let self' := (forward qr self datadict).1 in
  [/\ distribution_layer self' = Some layer,
      regularization self' = Some (Num 0)
    & forall Y, get_log_loss self' Y = negative_log_prob layer Y].
Proof.
rewrite /forward; case: (forward_loop _ _ _ _) => //= pred.
case: (get_distribution_trafos _ _) => //= pp.
by case: (distribution_layer_type _ _) => //= l [<-].
Qed.

(** X14. A pass that raises leaves the stored distribution as it was: absent
    if no pass succeeded before, otherwise the instance of the last
    successful pass, which [get_log_loss] goes on using. *)
Theorem forward_failure_keeps_layer self datadict e :
  (forward qr self datadict).2 = Err e ->
  let self' := (forward qr self datadict).1 in
  distribution_layer self' = distribution_layer self
  /\ forall Y, get_log_loss self' Y = get_log_loss self Y.
Proof.
rewrite /forward; case: (forward_loop _ _ _ _) => [pred|e'] //=.
case: (get_distribution_trafos _ _) => //= pp.
by case: (distribution_layer_type _ _).
Qed.

Lemma forward_loop_entries self items acc pred :
  uniq (keys acc ++ keys items) ->
  forward_loop qr self items acc = Ok pred ->
  exists rs,
    [/\ pred = acc ++ rs, keys rs = keys items
      & forall name batch, dict_get items name = Ok batch ->
          exists net p,
            [/\ dict_get (single_parameter_sddr_list self) name = Ok net,
                Sddr_Param_Net.forward qr net batch = Ok p
              & dict_get rs name = Ok p]].
Proof.
elim: items acc => [|[k b] items IH] acc /=.
  by move=> _ [<-]; exists [::]; rewrite cats0.
move=> Hu; have Hk : k \notin keys acc.
  by move: Hu; rewrite cat_uniq /= negb_or => /and3P[_ /andP[]].
case Hn: (dict_get _ k) => [net|] //=.
case Hp: (Sddr_Param_Net.forward qr net b) => [p|] //=.
rewrite dict_set_fresh // => /IH[|rs [-> Hkeys Hrs]].
  by rewrite /keys map_rcons cat_rcons.
exists ((k, p) :: rs); rewrite cat_rcons /= Hkeys; split=> // name batch.
case: eqP => [<- [<-]|_ /Hrs //]; by exists net, p.
Qed.

(** X15. For a batch mapping (its keys are distinct), a completed loop yields
    the predictions in the order of the batch mapping, each one the
    result of the registered sub-network of that name on that
    parameter's batch. *)
Theorem forward_loop_predictions self datadict pred :
  uniq (keys datadict) ->
  forward_loop qr self datadict [::] = Ok pred ->
  keys pred = keys datadict
  /\ forall name batch, dict_get datadict name = Ok batch ->
       exists net p,
         [/\ dict_get (single_parameter_sddr_list self) name = Ok net,
             Sddr_Param_Net.forward qr net batch = Ok p
           & dict_get pred name = Ok p].
Proof.
move=> Hu /(forward_loop_entries (acc := [::]) Hu)[rs [-> Hkeys Hrs]].
by split.
Qed.

End CompositeExtras.

(** * The further properties on the concrete networks *)

Section MoreInstances.

Import Examples MoreExamples.
Local Open Scope ring_scope.

(** X1 on a concrete input. *)
Lemma orthog_layer_defined_witness :
  is_ok (Sddr_Param_Net._orthog_layer first_column (ones 2 3))
  = (rows first_column == rows (ones 2 3))
  /\ exists Utilde,
       [/\ Sddr_Param_Net._orthog_layer first_column (ones 2 3) = Ok Utilde,
           rows Utilde = 2%N & cols Utilde = 3%N].
Proof.
have [H1 H2] := orthog_layer_defined first_column (ones 2 3).
split; first exact: H1.
by eexists; have [Hr Hc] := H2 _ erefl; split; first reflexivity.
Defined.

(** X4 on a concrete input. *)
Lemma orthog_layer_empty_basis_witness :
  [/\ cols empty_basis = 0%N, rows empty_basis = rows (ones 2 3)
    & Sddr_Param_Net._orthog_layer empty_basis (ones 2 3) = Ok (ones 2 3)].
Proof.
split; [by [] | by [] |].
exact: (@orthog_layer_empty_basis int empty_basis (ones 2 3) erefl erefl).
Defined.

(** X5 on a concrete input. *)
Lemma forward_ok_covers_witness :
  exists v,
    [/\ constructed net_orth,
        Sddr_Param_Net.forward qr_keep net_orth batch_orth = Ok v,
        "structured"%string \in keys batch_orth
      & all (fun k => (k \in keys batch_orth)
               && (k \in keys (Sddr_Param_Net.orthogonalization_pattern
                                 net_orth)))
            (keys (Sddr_Param_Net.deep_models_dict net_orth))].
Proof.
have C : constructed net_orth by [].
have [H1 H2] := @forward_ok_covers int qr_keep net_orth batch_orth _ C erefl.
by eexists; split; [exact: C | reflexivity | exact: H1 | exact: H2].
Defined.

(** X6 on a concrete input. *)
Lemma forward_one_column_witness :
  exists v t,
    [/\ Sddr_Param_Net.forward qr_keep net_orth batch_orth = Ok v,
        v = Ten t & cols t = 1%N].
Proof.
have [t Ht Hc] :=
  @forward_one_column int qr_keep net_orth batch_orth _ erefl.
by eexists; exists t; split; [reflexivity | exact: Ht | exact: Hc].
Defined.

(** X7 on a concrete input. *)
Lemma forward_loop_empty_patterns_witness :
  [/\ uniq (keys (Sddr_Param_Net.deep_models_dict net_two)),
      forall k, k \in keys (Sddr_Param_Net.deep_models_dict net_two) ->
        dict_get (Sddr_Param_Net.orthogonalization_pattern net_two) k
        = Ok [::]
    & Sddr_Param_Net.forward_loop qr_keep net_two batch_two (ones 4 1)
        (keys (Sddr_Param_Net.deep_models_dict net_two)) [::]
      = mapM (raw_output batch_two) (Sddr_Param_Net.deep_models_dict net_two)].
Proof.
have Hp : forall k, k \in keys (Sddr_Param_Net.deep_models_dict net_two) ->
            dict_get (Sddr_Param_Net.orthogonalization_pattern net_two) k
            = Ok [::].
  by move=> k; rewrite !inE => /orP[] /eqP ->.
split; [by [] | exact: Hp |].
exact: (@forward_loop_empty_patterns int qr_keep net_two batch_two (ones 4 1)
          erefl Hp).
Defined.

(** X8 on a concrete input. *)
Lemma sliced_columns_defined_witness :
  pattern_out_of_range <> [::]
  /\ exists U,
       [/\ cat1 [seq slice_cols (ones 4 3) sl | sl <- pattern_out_of_range]
           = Ok U,
           rows U = 4%N & cols U = 2%N].
Proof.
have H : pattern_out_of_range <> [::] by [].
split; [exact: H | exact: (@sliced_columns_defined int (ones 4 3) _ H)].
Defined.

(** X9 on a concrete input. *)
Lemma forward_reads_only_witness :
  (forall k,
     k \in "structured"%string
           :: keys (Sddr_Param_Net.deep_models_dict net_two) ->
     dict_get batch_two k = dict_get batch_two_more k)
  /\ Sddr_Param_Net.forward qr_keep net_two batch_two
     = Sddr_Param_Net.forward qr_keep net_two batch_two_more.
Proof.
have H : forall k,
    k \in "structured"%string
          :: keys (Sddr_Param_Net.deep_models_dict net_two) ->
    dict_get batch_two k = dict_get batch_two_more k.
  by move=> k; rewrite !inE => /or3P[] /eqP ->.
split; [exact: H | exact: (@forward_reads_only int qr_keep net_two _ _ H)].
Defined.

(** X10 on a concrete input. *)
Lemma forward_structured_only_witness :
  [/\ Sddr_Param_Net._deep_models_exist net_plain = false,
      dict_get batch_plain "structured" = Ok (ones 2 1),
      Sddr_Param_Net.forward qr_keep net_plain batch_plain
      = Ok (Ten (Tensor ((const_mx 1 : 'M[int]_(2, 1))
                         *m (weight (Sddr_Param_Net.structured_head
                                       net_plain))^T)))
    & Sddr_Param_Net.forward qr_keep net_plain
        [:: ("structured"%string, zeros int 2 1)]
      = Ok (Ten (zeros int 2 1))].
Proof.
have [H1 _] :=
  @forward_structured_only int qr_keep net_plain batch_plain 2 (const_mx 1)
    erefl erefl.
have [_ H2] :=
  @forward_structured_only int qr_keep net_plain
    [:: ("structured"%string, zeros int 2 1)] 2 0 erefl erefl.
by split; [| | exact: H1 | exact: H2].
Defined.

(** X12 on a concrete input. *)
Lemma init_registers_witness :
  [/\ ~~ is_ok (SddrNet.get_distribution_layer_type failing_family),
      ~~ is_ok (SddrNet.__init__ ones_init failing_family info_two),
      SddrNet.__init__ ones_init toy_family info_two = Ok composite,
      uniq (keys info_two)
    & keys (SddrNet.single_parameter_sddr_list composite) = keys info_two
      /\ forall name v, dict_get info_two name = Ok v ->
           dict_get (SddrNet.single_parameter_sddr_list composite) name
           = Ok (param_net_of ones_init v)].
Proof.
have [Hf _] := @init_registers int ones_init failing_family info_two.
have [_ H] := @init_registers int ones_init toy_family info_two.
have [_ H2 H3] := H composite erefl erefl.
by split; [| exact: (Hf erefl) | | | split; [exact: H2 | exact: H3]].
Defined.

(** X13 on a concrete input. *)
Lemma forward_ready_witness :
  exists layer,
    [/\ (SddrNet.forward qr_keep composite datadict_loc).2 = Ok layer,
        SddrNet.distribution_layer
          (SddrNet.forward qr_keep composite datadict_loc).1 = Some layer
      & forall Y,
          SddrNet.get_log_loss
            (SddrNet.forward qr_keep composite datadict_loc).1 Y
          = negative_log_prob layer Y].
Proof.
have [H1 _ H3] := @forward_ready int qr_keep composite datadict_loc _ erefl.
by eexists; split; [reflexivity | exact: H1 | exact: H3].
Defined.

(** X14 on a concrete input. *)
Lemma forward_failure_keeps_layer_witness :
  [/\ (SddrNet.forward qr_keep composite datadict_bogus).2
      = Err (KeyError "bogus"),
      SddrNet.distribution_layer
        (SddrNet.forward qr_keep composite datadict_bogus).1
      = SddrNet.distribution_layer composite
    & forall Y,
        SddrNet.get_log_loss
          (SddrNet.forward qr_keep composite datadict_bogus).1 Y
        = SddrNet.get_log_loss composite Y].
Proof.
have [H1 H2] :=
  @forward_failure_keeps_layer int qr_keep composite datadict_bogus
    (KeyError "bogus") erefl.
by split; [| exact: H1 | exact: H2].
Defined.

(** X15 on a concrete input. *)
Lemma forward_loop_predictions_witness :
  exists pred,
    [/\ uniq (keys datadict_loc),
        SddrNet.forward_loop qr_keep composite datadict_loc [::] = Ok pred,
        keys pred = keys datadict_loc
      & forall name batch, dict_get datadict_loc name = Ok batch ->
          exists net p,
            [/\ dict_get (SddrNet.single_parameter_sddr_list composite) name
                = Ok net,
                Sddr_Param_Net.forward qr_keep net batch = Ok p
              & dict_get pred name = Ok p]].
Proof.
have [H1 H2] :=
  @forward_loop_predictions int qr_keep composite datadict_loc _ erefl erefl.
by eexists; split; [| reflexivity | exact: H1 | exact: H2].
Defined.

End MoreInstances.
